(** * filter_users.py: the user filtering tool, embedded and verified

    The program loads a list of user records from [users.json], asks for a
    filter kind and a value on standard input, applies one of three filters
    and prints the matches.

    Layout of this file:
    - [PyStr]: the Python built-ins on strings the program calls
      ([str.lower], [str.strip], [int], [str], [repr]);
    - the data model (JSON values, user records) and the three filters;
    - [Heap]: the filters over an object store, for aliasing and mutation;
    - the interactive part ([load_users], [print_users], [get_choice],
      [get_value_for_choice], [main]) in a small state-and-exception monad,
      with [Loaded], the filters as [main] calls them: on whatever value
      [json.load] returned;
    - the vocabulary of the statements, and the theorems.

    Strings are [string]s of 8-bit characters read as the code points
    U+0000..U+00FF; every built-in below is CPython's behaviour on such
    strings, and none of them leaves that range. *)

From Stdlib Require Import ZArith String Ascii List Bool Lia.
From Stdlib Require Import DecimalString DecimalFacts DecimalPos.
From stdpp Require Import base option list gmap strings.

Local Open Scope string_scope.
Local Open Scope Z_scope.

(** ** Python's string built-ins *)

Module PyStr.

Definition code (c : ascii) : N := N_of_ascii c.

Definition between (lo hi : N) (c : ascii) : bool :=
  ((lo <=? code c) && (code c <=? hi))%N.

(** [str.lower] on one character: A-Z and the Latin-1 capitals
    U+00C0..U+00DE (the multiplication sign U+00D7 apart) move up by 32. *)
Definition lower_char (c : ascii) : ascii :=
  if between 65 90 c || (between 192 222 c && negb (code c =? 215)%N)
  then ascii_of_N (code c + 32)
  else c.

(** [s.lower()] *)
Fixpoint lower (s : string) : string :=
  match s with
  | EmptyString => EmptyString
  | String c s' => String (lower_char c) (lower s')
  end.

(** [str.isspace] on one character: TAB..CR, FS..US, space, NEL, NBSP. *)
Definition is_space (c : ascii) : bool :=
  between 9 13 c || between 28 32 c
  || (code c =? 133)%N || (code c =? 160)%N.

Fixpoint lstrip_by (space : ascii -> bool) (s : string) : string :=
  match s with
  | EmptyString => EmptyString
  | String c s' => if space c then lstrip_by space s' else s
  end.

Fixpoint rstrip_by (space : ascii -> bool) (s : string) : string :=
  match s with
  | EmptyString => EmptyString
  | String c s' =>
      match rstrip_by space s' with
      | EmptyString => if space c then EmptyString else String c EmptyString
      | r => String c r
      end
  end.

(** [s.strip()] *)
Definition strip (s : string) : string := rstrip_by is_space (lstrip_by is_space s).

(** [str(n)] for an [int]: decimal digits, [-] in front when negative. *)
Definition str_of_int (n : Z) : string :=
  NilZero.string_of_int (Z.to_int n).

Definition is_digit (c : ascii) : bool := between 48 57 c.

Definition digit_value (c : ascii) : Z := Z.of_N (code c) - 48.

(** The digits of [int(s)] after the sign: a digit, then digits each
    preceded by at most one underscore.  [prev_digit] says whether the
    character before was a digit, [acc] is the value read so far. *)
Fixpoint int_digits (prev_digit : bool) (acc : Z) (s : string) : option Z :=
  match s with
  | EmptyString => if prev_digit then Some acc else None
  | String c s' =>
      if is_digit c then int_digits true (10 * acc + digit_value c) s'
      else if (code c =? 95)%N && prev_digit then int_digits false acc s'
      else None
  end.

(** The number of digit characters of a text. *)
Fixpoint count_digits (s : string) : N :=
  match s with
  | EmptyString => 0%N
  | String c s' => ((if is_digit c then 1 else 0) + count_digits s')%N
  end.

(** [sys.get_int_max_str_digits()], which the program leaves at its
    default: [int] raises [ValueError] on a text with more digits.  The
    sign and the underscores do not count. *)
Definition max_str_digits : N := 4300.

(** The digits, no more than [max_str_digits] of them. *)
Definition int_unsigned (s : string) : option Z :=
  if (count_digits s <=? max_str_digits)%N then int_digits false 0 s else None.

(** An optional sign, then the digits. *)
Definition int_signed (s : string) : option Z :=
  match s with
  | String "+" s' => int_unsigned s'
  | String "-" s' => Z.opp <$> int_unsigned s'
  | _ => int_unsigned s
  end.

(** The whitespace [int] skips around the number: TAB..CR, space, NEL,
    NBSP (not FS..US, unlike [str.isspace]). *)
Definition int_space (c : ascii) : bool :=
  between 9 13 c || (code c =? 32)%N || (code c =? 133)%N || (code c =? 160)%N.

(** [int(s)]: [Some n] for the integer read, [None] for [ValueError]. *)
Definition int (s : string) : option Z :=
  int_signed (rstrip_by int_space (lstrip_by int_space s)).

Definition hex_digit (n : N) : ascii :=
  if (n <? 10)%N then ascii_of_N (48 + n) else ascii_of_N (87 + n).

(** [repr] writes the characters that are not printable as [\xhh]:
    the controls, DEL..NBSP and the soft hyphen. *)
Definition printable (c : ascii) : bool :=
  negb (between 0 31 c || between 127 160 c || (code c =? 173)%N).

Definition repr_char (quote c : ascii) : string :=
  if (c =? quote)%char || (c =? "\")%char then String "\" (String c "")
  else if (code c =? 9)%N then "\t"
  else if (code c =? 10)%N then "\n"
  else if (code c =? 13)%N then "\r"
  else if printable c then String c ""
  else String "\" (String "x"
         (String (hex_digit (code c / 16)) (String (hex_digit (code c mod 16)) ""))).

Fixpoint contains (c : ascii) (s : string) : bool :=
  match s with
  | EmptyString => false
  | String c' s' => (c =? c')%char || contains c s'
  end.

Definition dquote : ascii := ascii_of_N 34.

Fixpoint repr_body (quote : ascii) (s : string) : string :=
  match s with
  | EmptyString => EmptyString
  | String c s' => repr_char quote c ++ repr_body quote s'
  end.

(** [repr(s)] for a [str]: single quotes, unless the text has a single
    quote and no double quote. *)
Definition repr (s : string) : string :=
  let quote := if contains "'" s && negb (contains dquote s) then dquote else "'"%char in
  String quote (repr_body quote s ++ String quote "").

End PyStr.

(** ** Data model *)

(** What [json.load] yields as the value of a field.  A [float] is carried
    by its [repr]: the program never computes with one, it only renders it.
    A nested object keeps its keys in file order, as its rendering shows
    them. *)
#[warnings="-register-all"]
Inductive value : Type :=
| VNone
| VBool (b : bool)
| VInt (n : Z)
| VFloat (repr : string)
| VStr (s : string)
| VList (items : list value)
| VDict (items : list (string * value)).

(** A user record: a [dict] from field names to values.  The program only
    looks fields up in it. *)
Abbreviation record := (gmap string value).

(** [repr(v)] *)
Fixpoint py_repr (v : value) : string :=
  match v with
  | VNone => "None"
  | VBool true => "True"
  | VBool false => "False"
  | VInt n => PyStr.str_of_int n
  | VFloat r => r
  | VStr s => PyStr.repr s
  | VList items => "[" ++ String.concat ", " (List.map py_repr items) ++ "]"
  | VDict items =>
      "{" ++ String.concat ", "
               (List.map (fun kv => PyStr.repr (fst kv) ++ ": " ++ py_repr (snd kv)) items)
          ++ "}"
  end.

(** [str(v)]: a [str] is itself, everything else is its [repr]. *)
Definition py_str (v : value) : string :=
  match v with
  | VStr s => s
  | _ => py_repr v
  end.

(** [isinstance(v, int)]: [bool] is a subclass of [int]. *)
Definition isinstance_int (v : value) : bool :=
  match v with
  | VInt _ | VBool _ => true
  | _ => false
  end.

(** [v == n] for an [int] n: numbers compare by value, [True] is 1 and
    [False] is 0; a [float] is never compared here, see [age_matches]. *)
Definition eq_int (v : value) (n : Z) : bool :=
  match v with
  | VInt m => m =? n
  | VBool b => (if b then 1 else 0) =? n
  | _ => false
  end.

(** [u.get(k)] and [u.get(k, d)] *)
Definition get (u : record) (k : string) : value := default VNone (u !! k).
Definition get_default (u : record) (k : string) (d : value) : value := default d (u !! k).

(** ** The filters *)

(** The test of the comprehension in [filter_users_by_name]:
    [str(u.get("name", "")).lower() == name_lower] *)
Definition name_matches (name_lower : string) (u : record) : bool :=
  String.eqb (PyStr.lower (py_str (get_default u "name" (VStr "")))) name_lower.

Definition filter_users_by_name (users : list record) (name : string) : list record :=
  let name_lower := PyStr.lower name in
  List.filter (name_matches name_lower) users.

(** [isinstance(u.get("age"), int) and u["age"] == age].  The subscript
    [u["age"]] raises [KeyError] on a record without the key; [and] only
    evaluates it when the left operand holds, and then the key is there
    ([age_subscript_defined]). *)
Definition age_matches (age : Z) (u : record) : bool :=
  isinstance_int (get u "age") && from_option (fun v => eq_int v age) false (u !! "age").

Definition filter_users_by_age (users : list record) (age : Z) : list record :=
  List.filter (age_matches age) users.

(** [str(u.get("email", "")).lower() == email_lower] *)
Definition email_matches (email_lower : string) (u : record) : bool :=
  String.eqb (PyStr.lower (py_str (get_default u "email" (VStr "")))) email_lower.

Definition filter_users_by_email (users : list record) (email : string) : list record :=
  let email_lower := PyStr.lower email in
  List.filter (email_matches email_lower) users.

Definition ann1 : record :=
  {[ "id" := VInt 1; "name" := VStr "Ann"; "age" := VInt 30; "email" := VStr "A@x.com" ]}.
Definition ann2 : record :=
  {[ "id" := VInt 2; "name" := VStr "ann"; "age" := VInt 41; "email" := VStr "ann@x.com" ]}.

(** ** The filters over an object store

    In Python the user collection is a list object that holds references
    to dict objects.  A filter reads both and builds a new list object out
    of the references it keeps: the records of the result are the very
    objects of the input. *)

Module Heap.

Abbreviation loc := positive.

Inductive object : Type :=
| Dict (fields : record)
| ListOf (items : list loc).

Abbreviation heap := (gmap positive object).

(** The dict a reference points to, if it points to one. *)
Definition dict_at (h : heap) (u : loc) : option record :=
  match h !! u with
  | Some (Dict fields) => Some fields
  | _ => None
  end.

(** The references a list object holds. *)
Definition items_at (h : heap) (users : loc) : option (list loc) :=
  match h !! users with
  | Some (ListOf items) => Some items
  | _ => None
  end.

(** The user collection a reference stands for: a list all of whose
    items are dicts. *)
Definition users_at (h : heap) (users : loc) : option (list record) :=
  items ← items_at h users;
  mapM (dict_at h) items.

(** [[u for u in items if test(u)]], reference by reference; [None]
    when an item is not a dict (the test would raise). *)
Fixpoint comprehension (h : heap) (test : record -> bool) (items : list loc)
  : option (list loc) :=
  match items with
  | [] => Some []
  | u :: rest =>
      fields ← dict_at h u;
      kept ← comprehension h test rest;
      Some (if test fields then u :: kept else kept)
  end.

(** A new list object, at an address not in use. *)
Definition new_list (h : heap) (items : list loc) : loc * heap :=
  let r := fresh (dom h) in
  (r, <[r := ListOf items]> h).

Definition filter_by (test : record -> bool) (h : heap) (users : loc)
  : option (loc * heap) :=
  items ← items_at h users;
  kept ← comprehension h test items;
  Some (new_list h kept).

Definition filter_users_by_name (h : heap) (users : loc) (name : string) :=
  let name_lower := PyStr.lower name in
  filter_by (name_matches name_lower) h users.

Definition filter_users_by_age (h : heap) (users : loc) (age : Z) :=
  filter_by (age_matches age) h users.

Definition filter_users_by_email (h : heap) (users : loc) (email : string) :=
  let email_lower := PyStr.lower email in
  filter_by (email_matches email_lower) h users.

(** What it means for a store-level filter [hf] to leave its input alone
    and to compute the value-level filter [pf]: on a store in which
    [users] is a user collection, the call returns a list object that was
    not there before, every object that was there is as it was, and the
    new list holds the references of [users] that [pf] keeps. *)
Definition non_mutating {X} (hf : heap -> loc -> X -> option (loc * heap))
    (pf : list record -> X -> list record) : Prop :=
  forall (h : heap) (users : loc) (U : list record) (x : X),
    users_at h users = Some U ->
    exists (r : loc) (h' : heap) (kept : list loc),
      hf h users x = Some (r, h') /\
      h !! r = None /\
      h' = <[r := ListOf kept]> h /\
      (forall l o, h !! l = Some o -> h' !! l = Some o) /\
      users_at h' users = Some U /\
      sublist kept (default [] (items_at h users)) /\
      users_at h' r = Some (pf U x).

(** Applied to its own output, the store-level filter [hf] returns a list
    that holds the same references, in the same order. *)
Definition idempotent {X} (hf : heap -> loc -> X -> option (loc * heap)) : Prop :=
  forall (h h' : heap) (users r : loc) (x : X),
    hf h users x = Some (r, h') ->
    exists (r2 : loc) (h2 : heap),
      hf h' r x = Some (r2, h2) /\
      items_at h2 r2 = items_at h' r.

End Heap.

(** ** The interactive part: state, exceptions, exit *)

(** The exceptions the program meets.  [JSONDecodeError] and
    [UnicodeDecodeError] are subclasses of [ValueError]; [PermissionError]
    stands for the [OSError]s of [open] other than [FileNotFoundError]. *)
Inductive exn : Type :=
| FileNotFoundError
| PermissionError
| UnicodeDecodeError
| JSONDecodeError
| EOFError
| KeyboardInterrupt
| ValueError
| TypeError
| AttributeError.

Definition exn_eqb (e1 e2 : exn) : bool :=
  match e1, e2 with
  | FileNotFoundError, FileNotFoundError
  | PermissionError, PermissionError
  | UnicodeDecodeError, UnicodeDecodeError
  | JSONDecodeError, JSONDecodeError
  | EOFError, EOFError
  | KeyboardInterrupt, KeyboardInterrupt
  | ValueError, ValueError
  | TypeError, TypeError
  | AttributeError, AttributeError => true
  | _, _ => false
  end.

(** [isinstance(e, cls)] for exception classes *)
Definition exn_isinstance (e cls : exn) : bool :=
  exn_eqb e cls ||
  match e, cls with
  | JSONDecodeError, ValueError
  | UnicodeDecodeError, ValueError => true
  | _, _ => false
  end.

(** What [open] and [json.load] make of a file:
    - [Unreadable]: it cannot be opened ([PermissionError]);
    - [NotUTF8]: its bytes are not UTF-8 ([UnicodeDecodeError]);
    - [NotJSON]: its text is not JSON ([JSONDecodeError]);
    - [IntegerTooLong]: its JSON has an integer of more digits than [int]
      accepts ([ValueError]);
    - [UsersJSON users]: [json.load] returns the list of objects [users],
      what [load_users] is declared to return;
    - [OtherJSON doc]: [json.load] returns the value [doc], whatever it
      is.
    A file that exhausts the interpreter (no memory left, nesting deeper
    than the parser recurses) is not among these. *)
Inductive file : Type :=
| Unreadable
| NotUTF8
| NotJSON
| IntegerTooLong
| UsersJSON (users : list record)
| OtherJSON (doc : value).

(** What [load_users] returns. *)
Inductive document : Type :=
| Records (users : list record)
| Other (doc : value).

(** What the person at the keyboard does at one prompt: type a line, end
    the input, or interrupt. *)
Inductive keyboard : Type :=
| Line (text : string)
| CtrlD
| CtrlC.

(** What reaches standard output: the prompt of an [input] call (no line
    end) or the text of a [print] call (followed by a line end). *)
Inductive output : Type :=
| Prompt (text : string)
| Print (text : string).

(** Which filter was called, and with which value; kept as a log so that
    theorems can say that no filter ran. *)
Inductive filter_call : Type :=
| ByName (name : string)
| ByAge (age : Z)
| ByEmail (email : string).

Record world : Type := World {
  files : gmap string file;
  stdin : list keyboard;
  stdout : list output;
  calls : list filter_call
}.

(** How a piece of a function body ends: it goes on with a value, it
    [return]s from the function, it raises, or the process exits. *)
Inductive outcome (R A : Type) : Type :=
| Done (a : A)
| Return (r : R)
| Raise (e : exn)
| Exit (code : Z).
Arguments Done {R A} a.
Arguments Return {R A} r.
Arguments Raise {R A} e.
Arguments Exit {R A} code.

(** A computation inside a function whose result type is [R]. *)
Definition io (R A : Type) : Type := world -> outcome R A * world.

#[global] Instance io_ret {R} : MRet (io R) := fun A a w => (Done a, w).
#[global] Instance io_bind {R} : MBind (io R) := fun A B f m w =>
  match m w with
  | (Done a, w') => f a w'
  | (Return r, w') => (Return r, w')
  | (Raise e, w') => (Raise e, w')
  | (Exit c, w') => (Exit c, w')
  end.

(** [return r] *)
Definition return_ {R A} (r : R) : io R A := fun w => (Return r, w).

(** [raise e] *)
Definition raise {R A} (e : exn) : io R A := fun w => (Raise e, w).

(** [sys.exit(code)] *)
Definition sys_exit {R A} (code : Z) : io R A := fun w => (Exit code, w).

(** A function with the given body, called from a function whose result
    type is [S]: a [return] of the body ends the call, not the caller. *)
Definition function {R S} (body : io R R) : io S R :=
  fun w =>
    match body w with
    | (Done r, w') | (Return r, w') => (Done r, w')
    | (Raise e, w') => (Raise e, w')
    | (Exit c, w') => (Exit c, w')
    end.

(** [if cond: body] *)
Definition when {R} (cond : bool) (body : io R unit) : io R unit :=
  if cond then body else mret tt.

(** The handler of the first [except] clause that names a class of [e]. *)
Fixpoint handler_for {H} (e : exn) (clauses : list (list exn * H)) : option H :=
  match clauses with
  | [] => None
  | (classes, handler) :: rest =>
      if existsb (exn_isinstance e) classes then Some handler
      else handler_for e rest
  end.

(** [try: body  except classes1: handler1  except classes2: handler2 ...] *)
Definition try_except {R A} (body : io R A) (clauses : list (list exn * io R A)) : io R A :=
  fun w =>
    match body w with
    | (Raise e, w') =>
        match handler_for e clauses with
        | Some handler => handler w'
        | None => (Raise e, w')
        end
    | r => r
    end.

(** [print(text)] *)
Definition print {R} (text : string) : io R unit :=
  fun w => (Done tt, World (files w) (stdin w) (stdout w ++ [Print text])%list (calls w)).

(** [input(prompt)]: writes the prompt, then reads a line; the end of the
    input raises [EOFError], an interrupt raises [KeyboardInterrupt]. *)
Definition input {R} (prompt : string) : io R string :=
  fun w =>
    let out := (stdout w ++ [Prompt prompt])%list in
    match stdin w with
    | Line text :: rest => (Done text, World (files w) rest out (calls w))
    | CtrlC :: rest => (Raise KeyboardInterrupt, World (files w) rest out (calls w))
    | CtrlD :: rest => (Raise EOFError, World (files w) rest out (calls w))
    | [] => (Raise EOFError, World (files w) [] out (calls w))
    end.

(** [int(text)] *)
Definition int {R} (text : string) : io R Z :=
  match PyStr.int text with
  | Some n => mret n
  | None => raise ValueError
  end.

(** A call of one of the filters, entered in the log. *)
Definition call {R A} (c : filter_call) (filter : io R A) : io R A :=
  fun w => filter (World (files w) (stdin w) (stdout w) (calls w ++ [c])%list).

(** [for x in items: body(x)] *)
Fixpoint for_each {R A} (items : list A) (body : A -> io R unit) : io R unit :=
  match items with
  | [] => mret tt
  | x :: rest => body x;; for_each rest body
  end.

Definition DEFAULT_USERS_FILE : string := "users.json".

Definition newline : string := String (ascii_of_N 10) EmptyString.

(** [load_users]: [open] raises [FileNotFoundError] when there is no such
    file, [json.load] raises [JSONDecodeError] on text that is not JSON
    (the failures the docstring declares); the other failures of [open]
    and [json.load] are raised as well. *)
Definition load_users {S} (file_path : string) : io S document :=
  function (fun w =>
    match files w !! file_path with
    | None => (Raise FileNotFoundError, w)
    | Some Unreadable => (Raise PermissionError, w)
    | Some NotUTF8 => (Raise UnicodeDecodeError, w)
    | Some NotJSON => (Raise JSONDecodeError, w)
    | Some IntegerTooLong => (Raise ValueError, w)
    | Some (UsersJSON users) => (Return (Records users), w)
    | Some (OtherJSON doc) => (Return (Other doc), w)
    end).

(** ** The filters on what [load_users] returned

    [main] passes the loaded value to a filter without looking at it.  On a
    list of records the call is the filter above.  On any other value the
    comprehension does what Python does: a value that cannot be iterated
    raises [TypeError], an item without a [get] method (anything but an
    object) raises [AttributeError]. *)

Module Loaded.

(** [iter(doc)]: the items of a list, the keys of an object, the
    characters of a string; [None] for [TypeError]. *)
Definition iterate (doc : value) : option (list value) :=
  match doc with
  | VList items => Some items
  | VDict items => Some (List.map (fun kv => VStr (fst kv)) items)
  | VStr s => Some (List.map (fun c => VStr (String c EmptyString)) (list_ascii_of_string s))
  | _ => None
  end.

(** The record an item is, if it is an object. *)
Definition as_record (u : value) : option record :=
  match u with
  | VDict items => Some (list_to_map items)
  | _ => None
  end.

(** [[u for u in items if test(u)]] *)
Fixpoint comprehension {R} (items : list value) (test : record -> bool)
  : io R (list record) :=
  match items with
  | [] => mret []
  | u :: rest =>
      match as_record u with
      | None => raise AttributeError
      | Some fields =>
          kept ← comprehension rest test;
          mret (if test fields then fields :: kept else kept)
      end
  end.

Definition select {R} (users : document) (filter : list record -> list record)
    (test : record -> bool) : io R (list record) :=
  match users with
  | Records records => mret (filter records)
  | Other doc =>
      match iterate doc with
      | None => raise TypeError
      | Some items => comprehension items test
      end
  end.

Definition filter_users_by_name {R} (users : document) (name : string)
  : io R (list record) :=
  let name_lower := PyStr.lower name in
  select users (fun records => filter_users_by_name records name)
         (name_matches name_lower).

Definition filter_users_by_age {R} (users : document) (age : Z)
  : io R (list record) :=
  select users (fun records => filter_users_by_age records age) (age_matches age).

Definition filter_users_by_email {R} (users : document) (email : string)
  : io R (list record) :=
  let email_lower := PyStr.lower email in
  select users (fun records => filter_users_by_email records email)
         (email_matches email_lower).

End Loaded.

(** The f-string of [print_users]; [{x}] formats [x] as [str(x)]. *)
Definition user_line (user : record) : string :=
  "id: " ++ py_str (get user "id") ++ ", " ++
  "name: " ++ py_str (get user "name") ++ ", " ++
  "age: " ++ py_str (get user "age") ++ ", " ++
  "email: " ++ py_str (get user "email").

Definition is_empty {A} (l : list A) : bool :=
  match l with
  | [] => true
  | _ => false
  end.

Definition print_users {S} (users : list record) : io S unit :=
  function (
    when (is_empty users) (
      print "No users found.";;
      return_ tt);;
    for_each users (fun user =>
      let line := user_line user in
      print line)).

Definition choice_prompt : string :=
  "What would you like to filter by? " ++
  "(Enter 'name', 'age', or 'email'): ".

Definition get_choice {S} : io S (option string) :=
  function (
    let choices := ["name"; "age"; "email"] in
    choice ← try_except
               (let prompt := choice_prompt in
                text ← input prompt;
                mret (PyStr.lower (PyStr.strip text)))
               [([KeyboardInterrupt; EOFError],
                 print (newline ++ "Input cancelled.");;
                 return_ None)];
    when (negb (existsb (String.eqb choice) choices)) (
      print "Invalid choice. Please enter 'name', 'age', or 'email'.";;
      return_ None);;
    return_ (Some choice)).

Definition get_value_for_choice {S} (choice : string) : io S (option string) :=
  function (
    try_except
      (when (String.eqb choice "name") (
         text ← input "Enter a name to filter users: ";
         return_ (Some (PyStr.strip text)));;
       when (String.eqb choice "age") (
         text ← input "Enter an age to filter users: ";
         return_ (Some (PyStr.strip text)));;
       text ← input "Enter an email to filter users: ";
       return_ (Some (PyStr.strip text)))
      [([KeyboardInterrupt; EOFError],
        print (newline ++ "Input cancelled.");;
        return_ None)]).

(** [not s] for an [Optional[str]]: it holds of [None] and of the empty
    string. *)
Definition not_ (s : option string) : bool :=
  match s with
  | None => true
  | Some text => String.eqb text ""
  end.

(** [s is None or s == ""] *)
Definition is_none_or_empty (s : option string) : bool :=
  match s with
  | None => true
  | Some text => String.eqb text ""
  end.

Definition main {S} : io S unit :=
  function (
    users ← try_except
              (load_users DEFAULT_USERS_FILE)
              [([FileNotFoundError],
                 print ("Users file not found: " ++ DEFAULT_USERS_FILE);;
                 sys_exit 1);
               ([JSONDecodeError],
                 print ("Users file is not valid JSON: " ++ DEFAULT_USERS_FILE);;
                 sys_exit 1)];

    choice ← get_choice;
    when (not_ choice) (
      return_ tt);;
    let choice := default "" choice in

    value ← get_value_for_choice choice;
    when (is_none_or_empty value) (
      print "No value provided; exiting.";;
      return_ tt);;
    let value := default "" value in

    results ←
      (if String.eqb choice "name" then
         call (ByName value) (Loaded.filter_users_by_name users value)
       else if String.eqb choice "age" then
         age ← try_except
                 (int value)
                 [([ValueError],
                    print "Please enter a valid integer for age.";;
                    return_ tt)];
         call (ByAge age) (Loaded.filter_users_by_age users age)
       else
         call (ByEmail value) (Loaded.filter_users_by_email users value));

    print_users results).

(** Running the script: the exit status of the process and the world it
    leaves.  An exception nobody caught ends the process with status 1. *)
Definition run (w : world) : Z * world :=
  match @main unit w with
  | (Done _, w') | (Return _, w') => (0, w')
  | (Raise _, w') => (1, w')
  | (Exit code, w') => (code, w')
  end.

(** The world at the start of a run. *)
Definition start (fs : gmap string file) (keys : list keyboard) : world :=
  World fs keys [] [].


Definition users_file (users : list record) : gmap string file :=
  {[ DEFAULT_USERS_FILE := UsersJSON users ]}.

(** * Vocabulary of the statements

    The definitions below are not part of the program: they name what the
    theorems talk about. *)

(** [selection P U R]: R is the subsequence of U made of the records that
    satisfy P, each kept where it stood. *)
Inductive selection {A} (P : A -> Prop) : list A -> list A -> Prop :=
| selection_nil : selection P [] []
| selection_keep x U R : P x -> selection P U R -> selection P (x :: U) (x :: R)
| selection_drop x U R : ~ P x -> selection P U R -> selection P (x :: U) R.

(** The text a filter compares for field [k]: the empty string when the
    record has no such field, else the field's value as [str] renders it
    (a string is its own rendering). *)
Definition field_text (k : string) (u : record) : string :=
  match u !! k with
  | None => ""
  | Some v => py_str v
  end.

(** A record's name equals [v] up to case. *)
Definition name_is (v : string) (u : record) : Prop :=
  PyStr.lower (field_text "name" u) = PyStr.lower v.

Definition email_is (v : string) (u : record) : Prop :=
  PyStr.lower (field_text "email" u) = PyStr.lower v.

(** A store with the two records of the scenario and the list of them. *)
Definition scenario_heap : Heap.heap :=
  {[ 1%positive := Heap.Dict ann1; 2%positive := Heap.Dict ann2;
     3%positive := Heap.ListOf [1%positive; 2%positive] ]}.

(** The world after some more output. *)
Definition emit (w : world) (out : list output) : world :=
  World (files w) (stdin w) (stdout w ++ out)%list (calls w).

(** The world after one answer has been read, and some output. *)
Definition answered (w : world) (out : list output) : world :=
  World (files w) (tail (stdin w)) (stdout w ++ out)%list (calls w).

(** What [print_users] writes. *)
Definition printed_users (users : list record) : list output :=
  match users with
  | [] => [Print "No users found."]
  | _ => List.map (fun user => Print (user_line user)) users
  end.

(** The three filter kinds. *)
Definition valid_choice (choice : string) : Prop :=
  choice = "name" \/ choice = "age" \/ choice = "email".

(** The answer at a prompt is a cancellation: the input is at its end, or
    the person ends or interrupts it. *)
Definition cancels (keys : list keyboard) : Prop :=
  match keys with
  | [] | CtrlD :: _ | CtrlC :: _ => True
  | Line _ :: _ => False
  end.

Definition cancelled_notice : string := newline ++ "Input cancelled.".

Definition invalid_choice_message : string :=
  "Invalid choice. Please enter 'name', 'age', or 'email'.".

(** The prompt for the value, by filter kind. *)
Definition value_prompt (choice : string) : string :=
  if String.eqb choice "name" then "Enter a name to filter users: "
  else if String.eqb choice "age" then "Enter an age to filter users: "
  else "Enter an email to filter users: ".

(** The users file is there and holds the collection [users]. *)
Definition loaded (w : world) (users : list record) : Prop :=
  files w !! DEFAULT_USERS_FILE = Some (UsersJSON users).

(** The file from which [load_users] returns the document [d]. *)
Definition json_of (d : document) : file :=
  match d with
  | Records users => UsersJSON users
  | Other doc => OtherJSON doc
  end.

(** The exception [load_users] raises on a file and [main] does not
    catch. *)
Definition uncaught (f : file) : option exn :=
  match f with
  | Unreadable => Some PermissionError
  | NotUTF8 => Some UnicodeDecodeError
  | IntegerTooLong => Some ValueError
  | _ => None
  end.

Definition not_found_message : string := "Users file not found: users.json".
Definition not_json_message : string := "Users file is not valid JSON: users.json".

(** The parts of [main] that follow the choice and the value. *)
Definition after_value (users : document) (choice value : string) : io unit unit :=
  results ←
    (if String.eqb choice "name" then
       call (ByName value) (Loaded.filter_users_by_name users value)
     else if String.eqb choice "age" then
       age ← try_except
               (int value)
               [([ValueError],
                  print "Please enter a valid integer for age.";;
                  return_ tt)];
       call (ByAge age) (Loaded.filter_users_by_age users age)
     else
       call (ByEmail value) (Loaded.filter_users_by_email users value));
  print_users results.

Definition after_choice (users : document) (choice : string) : io unit unit :=
  value ← get_value_for_choice choice;
  when (is_none_or_empty value) (
    print "No value provided; exiting.";;
    return_ tt);;
  let value := default "" value in
  after_value users choice value.

Definition no_value_message : string := "No value provided; exiting.".
Definition invalid_integer_message : string := "Please enter a valid integer for age.".

(** The exit status a piece of [main] leads to. *)
Definition finish (r : outcome unit unit * world) : Z * world :=
  match r with
  | (Done _, w') | (Return _, w') => (0, w')
  | (Raise _, w') => (1, w')
  | (Exit code, w') => (code, w')
  end.

(** The choice as [get_choice] reads it: trimmed, then lower-cased. *)
Definition normalise (text : string) : string := PyStr.lower (PyStr.strip text).

(** How a field shows in a printed line: a string as it is, any other
    value as Python writes it, [None] for a null and for a missing field. *)
Definition shown (user : record) (k : string) : string :=
  match user !! k with
  | Some (VStr s) => s
  | Some v => py_repr v
  | None => "None"
  end.


(** A record's age is the integer [n]. *)
Definition age_is (n : Z) (u : record) : Prop := u !! "age" = Some (VInt n).

(** No record of the collection has a boolean for its age. *)
Definition no_bool_age (U : list record) : Prop :=
  forall u b, In u U -> u !! "age" <> Some (VBool b).

(** The value a filter is called with is a text that is not empty and has
    no whitespace at either end. *)
Definition trimmed (v : string) : Prop := v <> "" /\ PyStr.strip v = v.

Definition call_trimmed (c : filter_call) : Prop :=
  match c with
  | ByName v | ByEmail v => trimmed v
  | ByAge _ => True
  end.




(** What can be seen of a world from outside the file system: the input
    left, the output written, the filters called. *)
Definition observed (w : world) : list keyboard * list output * list filter_call :=
  (stdin w, stdout w, calls w).


(** The calls a run makes once the value [value] is read: none or one. *)
Definition one_call (value : string) (cs : list filter_call) : Prop :=
  cs = [] \/ cs = [ByName value] \/ cs = [ByEmail value] \/ exists n, cs = [ByAge n].

(** At most one call, and of the name or email filter only with a trimmed
    value. *)
Definition calls_ok (cs : list filter_call) : Prop :=
  cs = [] \/
  (exists v, trimmed v /\ (cs = [ByName v] \/ cs = [ByEmail v])) \/
  (exists n, cs = [ByAge n]).




(** The text of [n] digits [1]. *)
Definition ones (n : nat) : string := string_of_list_ascii (repeat "1"%char n).

(** * Theorems *)

(** ** The built-ins and the scenarios of the specification, run *)

Example lower_ANN : PyStr.lower "ANN" = "ann". Proof. reflexivity. Qed.
Example strip_age : PyStr.strip "  Age " = "Age". Proof. reflexivity. Qed.
Example int_30 : PyStr.int "30" = Some 30. Proof. reflexivity. Qed.
Example int_neg : PyStr.int "-1_000" = Some (-1000). Proof. reflexivity. Qed.
Example int_thirty : PyStr.int "thirty" = None. Proof. reflexivity. Qed.
Example int_empty : PyStr.int "" = None. Proof. reflexivity. Qed.
Example int_plus : PyStr.int "+7" = Some 7. Proof. reflexivity. Qed.
Example int_float : PyStr.int "3.0" = None. Proof. reflexivity. Qed.
Example int_underscores : PyStr.int "1__0" = None. Proof. reflexivity. Qed.
Example int_leading_underscore : PyStr.int "_1" = None. Proof. reflexivity. Qed.
Example int_zeros : PyStr.int "007" = Some 7. Proof. reflexivity. Qed.
Example lower_latin1 :
  PyStr.lower (String (ascii_of_N 201) "t" ++ String (ascii_of_N 215) "") =
  String (ascii_of_N 233) "t" ++ String (ascii_of_N 215) "".
Proof. reflexivity. Qed.
Example str_5 : PyStr.str_of_int 5 = "5". Proof. reflexivity. Qed.
Example str_0 : PyStr.str_of_int 0 = "0". Proof. reflexivity. Qed.
Example str_m12 : PyStr.str_of_int (-12) = "-12". Proof. reflexivity. Qed.
Example repr_a :
  PyStr.repr "a'b" = String PyStr.dquote ("a'b" ++ String PyStr.dquote "").
Proof. reflexivity. Qed.
Example repr_nl : PyStr.repr (String (ascii_of_N 10) "x") = "'\nx'".
Proof. reflexivity. Qed.
Example repr_e9 : PyStr.repr (String (ascii_of_N 133) "") = "'\x85'".
Proof. reflexivity. Qed.

(** [int] skips less whitespace than [strip] removes, so on trimmed text,
    the only text [main] passes to it, [int] reads the sign and the digits
    directly. *)
Section Stripped.
Import PyStr.
Variables P Q : ascii -> bool.
Hypothesis Q_P : forall c, Q c = true -> P c = true.

Lemma lstrip_by_head (s : string) :
  lstrip_by P s = EmptyString \/
  exists c s', lstrip_by P s = String c s' /\ P c = false.
Proof.
  induction s as [|c s IH]; simpl; [by left |].
  destruct (P c) eqn:E; [done |]. right. by exists c, s.
Qed.

Lemma rstrip_by_head (c : ascii) (s : string) :
  rstrip_by P (String c s) = EmptyString \/
  exists r, rstrip_by P (String c s) = String c r.
Proof.
  simpl. destruct (rstrip_by P s); [destruct (P c) |]; eauto.
Qed.

Lemma rstrip_by_rstrip_by (s : string) :
  rstrip_by Q (rstrip_by P s) = rstrip_by P s.
Proof.
  induction s as [|c s IH]; simpl; [done |].
  destruct (rstrip_by P s) as [|d r] eqn:E.
  - destruct (P c) eqn:Ec; simpl; [done |].
    destruct (Q c) eqn:Eq; [| done].
    apply Q_P in Eq. congruence.
  - change (rstrip_by Q (String c (String d r))) with
      (match rstrip_by Q (String d r) with
       | EmptyString => if Q c then EmptyString else String c EmptyString
       | r' => String c r'
       end).
    by rewrite IH.
Qed.

Lemma lstrip_by_strip (s : string) :
  lstrip_by Q (rstrip_by P (lstrip_by P s)) = rstrip_by P (lstrip_by P s).
Proof.
  destruct (lstrip_by_head s) as [-> | (c & s' & -> & Hc)]; [done |].
  destruct (rstrip_by_head c s') as [-> | [r ->]]; [done |].
  simpl. destruct (Q c) eqn:Eq; [| done].
  apply Q_P in Eq. congruence.
Qed.
End Stripped.

Lemma int_space_is_space (c : ascii) :
  PyStr.int_space c = true -> PyStr.is_space c = true.
Proof.
  unfold PyStr.int_space, PyStr.is_space, PyStr.between.
  destruct c as [[] [] [] [] [] [] [] []]; vm_compute; congruence.
Qed.

Lemma int_of_stripped (text : string) :
  PyStr.int (PyStr.strip text) = PyStr.int_signed (PyStr.strip text).
Proof.
  unfold PyStr.int, PyStr.strip.
  rewrite (lstrip_by_strip _ _ int_space_is_space).
  by rewrite (rstrip_by_rstrip_by _ _ int_space_is_space).
Qed.

Example scenario_name : filter_users_by_name [ann1; ann2] "ANN" = [ann1; ann2].
Proof. vm_compute. reflexivity. Qed.
Example scenario_age : filter_users_by_age [ann1; ann2] 30 = [ann1].
Proof. reflexivity. Qed.

Example run_name :
  run (start (users_file [ann1; ann2]) [Line "name"; Line "ANN"]) =
  (0, World (users_file [ann1; ann2]) []
        [Prompt choice_prompt; Prompt "Enter a name to filter users: ";
         Print "id: 1, name: Ann, age: 30, email: A@x.com";
         Print "id: 2, name: ann, age: 41, email: ann@x.com"]
        [ByName "ANN"]).
Proof. vm_compute. reflexivity. Qed.

(** ** The filters *)

Section Selection.
Context {A : Type} (P : A -> Prop) (test : A -> bool).
Hypothesis test_spec : forall x, test x = true <-> P x.

Lemma selection_filter (U : list A) : selection P U (List.filter test U).
Proof.
  induction U as [|x U IH]; simpl.
  - constructor.
  - destruct (test x) eqn:E.
    + apply selection_keep; [by apply test_spec | done].
    + apply selection_drop; [| done].
      intros HP. apply test_spec in HP. congruence.
Qed.

Lemma selection_unique (U R : list A) :
  selection P U R -> R = List.filter test U.
Proof.
  induction 1 as [|x U R HP _ IH|x U R HP _ IH]; simpl.
  - done.
  - apply test_spec in HP. rewrite HP. by f_equal.
  - destruct (test x) eqn:E; [| done].
    apply test_spec in E. contradiction.
Qed.

Lemma selection_iff (U R : list A) :
  selection P U R <-> R = List.filter test U.
Proof.
  split; [apply selection_unique | intros ->; apply selection_filter].
Qed.
End Selection.

Lemma selection_sublist {A} (P : A -> Prop) (U R : list A) :
  selection P U R -> sublist R U.
Proof. induction 1; by constructor. Qed.

Lemma filter_twice {A} (test : A -> bool) (U : list A) :
  List.filter test (List.filter test U) = List.filter test U.
Proof.
  induction U as [|x U IH]; simpl; [done |].
  destruct (test x) eqn:E; simpl; [| done].
  rewrite E. by f_equal.
Qed.

Lemma name_matches_spec (v : string) (u : record) :
  name_matches (PyStr.lower v) u = true <-> name_is v u.
Proof.
  unfold name_matches, name_is, get_default, field_text.
  rewrite String.eqb_eq. by destruct (u !! "name").
Qed.

Lemma email_matches_spec (v : string) (u : record) :
  email_matches (PyStr.lower v) u = true <-> email_is v u.
Proof.
  unfold email_matches, email_is, get_default, field_text.
  rewrite String.eqb_eq. by destruct (u !! "email").
Qed.

(** The subscript [u["age"]] is only evaluated on records that have the
    key: no [KeyError] can arise in [filter_users_by_age]. *)
Lemma age_subscript_defined (u : record) :
  isinstance_int (get u "age") = true -> is_Some (u !! "age").
Proof.
  unfold get. destruct (u !! "age"); [eauto | discriminate].
Qed.

(** A record passes the age test exactly when its [age] is the [int]
    asked for, or the [bool] that equals it. *)
Lemma age_matches_spec (age : Z) (u : record) :
  age_matches age u = true <->
  u !! "age" = Some (VInt age) \/
  (u !! "age" = Some (VBool true) /\ age = 1) \/
  (u !! "age" = Some (VBool false) /\ age = 0).
Proof.
  unfold age_matches, get.
  destruct (u !! "age") as [[| [|] | n | r | s | l | d]|]; cbn -[Z.eqb];
    rewrite ?Z.eqb_eq; split; intros H;
    repeat match goal with
           | H : _ \/ _ |- _ => destruct H
           | H : _ /\ _ |- _ => destruct H
           end; simplify_eq; auto; try discriminate; try lia.
Qed.



Lemma in_filter_users_by_age (U : list record) (age : Z) (u : record) :
  In u (filter_users_by_age U age) <->
  In u U /\
  (u !! "age" = Some (VInt age) \/
   (u !! "age" = Some (VBool true) /\ age = 1) \/
   (u !! "age" = Some (VBool false) /\ age = 0)).
Proof.
  unfold filter_users_by_age. by rewrite filter_In, age_matches_spec.
Qed.

(** C2. [filter_users_by_age] does return a record whose [age] is a
    boolean: [isinstance(True, int)] holds and [True == 1], so a record
    with [age] true is returned for the query 1.  In general the records
    returned are those of the collection whose [age] is the integer asked
    for or the boolean equal to it; a string, a float, [None], a list, an
    object or a missing field never matches. *)
Theorem filter_users_by_age_returns_bool :
  filter_users_by_age [{["age" := VBool true]}] 1 = [{["age" := VBool true]}] /\
  (forall (U : list record) (age : Z) (u : record),
      In u (filter_users_by_age U age) <->
      In u U /\
      (u !! "age" = Some (VInt age) \/
       (u !! "age" = Some (VBool true) /\ age = 1) \/
       (u !! "age" = Some (VBool false) /\ age = 0))).
Proof.
  split; [reflexivity | apply in_filter_users_by_age].
Qed.

(** C10. The name and email filters compare the [str] rendering of the
    stored value: a record is returned exactly when it is in the collection
    and the rendering of its field, lower-cased, is the lower-cased filter
    value.  So the record whose [name] (or [email]) is the integer 5 is
    returned for the filter value ["5"]. *)
Theorem filters_compare_str_rendering :
  (forall (U : list record) (v : string) (u : record),
      In u (filter_users_by_name U v) <->
      In u U /\ PyStr.lower (field_text "name" u) = PyStr.lower v) /\
  (forall (U : list record) (v : string) (u : record),
      In u (filter_users_by_email U v) <->
      In u U /\ PyStr.lower (field_text "email" u) = PyStr.lower v) /\
  field_text "name" {["name" := VInt 5]} = "5" /\
  filter_users_by_name [{["name" := VInt 5]}] "5" = [{["name" := VInt 5]}] /\
  filter_users_by_email [{["email" := VInt 5]}] "5" = [{["email" := VInt 5]}].
Proof.
  split; [| split; [| repeat split]].
  - intros U v u. unfold filter_users_by_name. by rewrite filter_In, name_matches_spec.
  - intros U v u. unfold filter_users_by_email. by rewrite filter_In, email_matches_spec.
Qed.

(** ** The filters leave the store alone *)

Section HeapFilters.
Import Heap.
Implicit Types (h : heap) (items kept : list loc) (U : list record).

Lemma comprehension_spec h (test : record -> bool) items U :
  mapM (dict_at h) items = Some U ->
  exists kept,
    comprehension h test items = Some kept /\
    sublist kept items /\
    mapM (dict_at h) kept = Some (List.filter test U).
Proof.
  revert U. induction items as [|u items IH]; intros U HU.
  - apply mapM_Some in HU. inversion HU; subst.
    exists []. split; [done | split; [constructor | done]].
  - apply mapM_Some in HU.
    inversion HU as [|? d ? U' Hd HU']; subst.
    apply mapM_Some in HU'.
    destruct (IH _ HU') as (kept & Hc & Hs & Hk).
    simpl. rewrite Hd, Hc. simpl.
    destruct (test d); eexists; split; try done; split.
    + by constructor.
    + simpl. by rewrite Hd, Hk.
    + by constructor.
    + done.
Qed.

(** A new object does not change what the old references stand for. *)
Lemma dicts_after_insert h (r : loc) (o : object) items U :
  h !! r = None ->
  mapM (dict_at h) items = Some U ->
  mapM (dict_at (<[r := o]> h)) items = Some U.
Proof.
  intros Hr HU. apply mapM_Some. apply mapM_Some in HU.
  eapply Forall2_impl; [exact HU |].
  intros u d Hd. unfold dict_at in *.
  destruct (decide (r = u)) as [->|Hne].
  - by rewrite Hr in Hd.
  - by rewrite lookup_insert_ne.
Qed.

Lemma filter_by_non_mutating {X} (test : X -> record -> bool) :
  non_mutating (fun h users x => filter_by (test x) h users)
               (fun U x => List.filter (test x) U).
Proof.
  intros h users U x HU.
  unfold users_at in HU.
  destruct (items_at h users) as [items|] eqn:Hitems; [| done].
  simpl in HU.
  destruct (comprehension_spec h (test x) items U HU) as (kept & Hc & Hs & Hk).
  assert (Hfresh : h !! fresh (dom h) = None)
    by apply not_elem_of_dom, is_fresh.
  exists (fresh (dom h)), (<[fresh (dom h) := ListOf kept]> h), kept.
  assert (Hold : forall l o, h !! l = Some o ->
                   <[fresh (dom h) := ListOf kept]> h !! l = Some o).
  { intros l o Hl. rewrite lookup_insert_ne; [done |]. congruence. }
  repeat split; try done.
  - unfold filter_by. rewrite Hitems. simpl. by rewrite Hc.
  - unfold users_at, items_at in *.
    destruct (h !! users) as [[|its]|] eqn:Hu; try done.
    rewrite (Hold _ _ Hu). simplify_eq/=. by apply dicts_after_insert.
  - unfold users_at, items_at. rewrite lookup_insert_eq. simpl.
    by apply dicts_after_insert.
Qed.

Lemma comprehension_idem h (test : record -> bool) items kept :
  comprehension h test items = Some kept ->
  comprehension h test kept = Some kept.
Proof.
  revert kept. induction items as [|u items IH]; intros kept H; simpl in H.
  - by simplify_eq.
  - destruct (dict_at h u) as [d|] eqn:Hd; [| done]. simpl in H.
    destruct (comprehension h test items) as [k|]; [| done]. simpl in H.
    specialize (IH k eq_refl).
    destruct (test d) eqn:Ht; simplify_eq; [| done].
    simpl. rewrite Hd, IH. simpl. by rewrite Ht.
Qed.

Lemma comprehension_after_insert h (r : loc) (o : object) (test : record -> bool)
    items kept :
  h !! r = None ->
  comprehension h test items = Some kept ->
  comprehension (<[r := o]> h) test items = Some kept.
Proof.
  intros Hr. revert kept. induction items as [|u items IH]; intros kept H; [done |].
  simpl in *.
  destruct (dict_at h u) as [d|] eqn:Hd; [| done]. simpl in H.
  destruct (comprehension h test items) as [k|]; [| done].
  rewrite (IH k eq_refl).
  assert (dict_at (<[r := o]> h) u = Some d) as ->; [| done].
  unfold dict_at in *. destruct (decide (r = u)) as [->|Hne].
  - by rewrite Hr in Hd.
  - by rewrite lookup_insert_ne.
Qed.

Lemma filter_by_idempotent {X} (test : X -> record -> bool) :
  idempotent (fun h users x => filter_by (test x) h users).
Proof.
  intros h h' users r x H. unfold filter_by in H.
  destruct (items_at h users) as [items|]; [| done]. simpl in H.
  destruct (comprehension h (test x) items) as [kept|] eqn:Hc; [| done].
  unfold new_list in H. simplify_eq/=.
  assert (Hfresh : h !! fresh (dom h) = None)
    by apply not_elem_of_dom, is_fresh.
  eexists _, _. unfold filter_by, items_at at 1.
  rewrite lookup_insert_eq. simpl.
  rewrite (comprehension_after_insert _ _ _ _ kept kept Hfresh)
    by (by eapply comprehension_idem).
  split; [reflexivity |].
  unfold items_at. by rewrite !lookup_insert_eq.
Qed.
End HeapFilters.

(** C9. Each of the three filters is idempotent: applied with the same
    value to its own output it returns that output.  And none modifies its
    input: run on an object store in which [users] is a user collection,
    it returns a list object that did not exist before, leaves every
    existing object (the input list and each record) as it was, and the
    new list holds, in order, the references of the input that the filter
    keeps; run again on that new list it returns a list of the same
    references. *)
Theorem filters_idempotent_non_mutating :
  (forall (U : list record) (v : string),
      filter_users_by_name (filter_users_by_name U v) v = filter_users_by_name U v) /\
  (forall (U : list record) (n : Z),
      filter_users_by_age (filter_users_by_age U n) n = filter_users_by_age U n) /\
  (forall (U : list record) (v : string),
      filter_users_by_email (filter_users_by_email U v) v = filter_users_by_email U v) /\
  Heap.non_mutating Heap.filter_users_by_name filter_users_by_name /\
  Heap.non_mutating Heap.filter_users_by_age filter_users_by_age /\
  Heap.non_mutating Heap.filter_users_by_email filter_users_by_email /\
  Heap.idempotent Heap.filter_users_by_name /\
  Heap.idempotent Heap.filter_users_by_age /\
  Heap.idempotent Heap.filter_users_by_email.
Proof.
  repeat split; intros; try apply filter_twice.
  - apply (filter_by_non_mutating (fun v => name_matches (PyStr.lower v))).
  - apply (filter_by_non_mutating age_matches).
  - apply (filter_by_non_mutating (fun v => email_matches (PyStr.lower v))).
  - apply (filter_by_idempotent (fun v => name_matches (PyStr.lower v))).
  - apply (filter_by_idempotent age_matches).
  - apply (filter_by_idempotent (fun v => email_matches (PyStr.lower v))).
Qed.

Lemma filters_idempotent_non_mutating_witness :
  filter_users_by_name (filter_users_by_name [ann1; ann2] "ANN") "ANN" =
    filter_users_by_name [ann1; ann2] "ANN" /\
  exists (r : Heap.loc) (h' : Heap.heap) (kept : list Heap.loc),
    Heap.filter_users_by_age scenario_heap 3 30 = Some (r, h') /\
    scenario_heap !! r = None /\
    h' = <[r := Heap.ListOf kept]> scenario_heap /\
    (forall l o, scenario_heap !! l = Some o -> h' !! l = Some o) /\
    Heap.users_at h' 3 = Some [ann1; ann2] /\
    sublist kept (default [] (Heap.items_at scenario_heap 3)) /\
    Heap.users_at h' r = Some (filter_users_by_age [ann1; ann2] 30).
Proof.
  split.
  - apply filters_idempotent_non_mutating.
  - apply (proj1 (proj2 (proj2 (proj2 (proj2 filters_idempotent_non_mutating))))).
    reflexivity.
Defined.

(** ** The interactive part *)

Lemma emit_nil (w : world) : emit w [] = w.
Proof. destruct w. unfold emit. simpl. by rewrite app_nil_r. Qed.

Lemma emit_emit (w : world) (out1 out2 : list output) :
  emit (emit w out1) out2 = emit w (out1 ++ out2)%list.
Proof. unfold emit. simpl. by rewrite app_assoc. Qed.

Lemma bind_run {R A B} (m : io R A) (f : A -> io R B) (w : world) :
  (m ≫= f) w =
  match m w with
  | (Done a, w') => f a w'
  | (Return r, w') => (Return r, w')
  | (Raise e, w') => (Raise e, w')
  | (Exit c, w') => (Exit c, w')
  end.
Proof. reflexivity. Qed.

Lemma print_run {R} (text : string) (w : world) :
  @print R text w = (Done tt, emit w [Print text]).
Proof. reflexivity. Qed.

Lemma for_each_print {R} (users : list record) (w : world) :
  for_each (R := R) users (fun user => let line := user_line user in print line) w =
  (Done tt, emit w (List.map (fun user => Print (user_line user)) users)).
Proof.
  revert w. induction users as [|u users IH]; intros w; simpl.
  - by rewrite emit_nil.
  - rewrite bind_run, print_run, IH. by rewrite emit_emit.
Qed.

Lemma print_users_run {S} (users : list record) (w : world) :
  @print_users S users w = (Done tt, emit w (printed_users users)).
Proof.
  unfold print_users, function. rewrite bind_run.
  destruct users as [|u users]; [reflexivity |].
  cbn [is_empty when mret io_ret].
  rewrite for_each_print. reflexivity.
Qed.

Lemma valid_choice_in_choices (choice : string) :
  existsb (String.eqb choice) ["name"; "age"; "email"] = true <-> valid_choice choice.
Proof.
  unfold valid_choice. simpl. rewrite !orb_true_iff, !String.eqb_eq.
  intuition discriminate.
Qed.

Lemma get_choice_cancelled {S} (w : world) :
  cancels (stdin w) ->
  @get_choice S w = (Done None, answered w [Prompt choice_prompt; Print cancelled_notice]).
Proof.
  destruct w as [fs keys out cs]. simpl.
  unfold get_choice, function, answered. rewrite !bind_run.
  unfold try_except. rewrite bind_run. unfold input. simpl.
  destruct keys as [|[text| |] rest]; simpl; intros H; try done;
    by rewrite <- app_assoc.
Qed.

Lemma get_choice_line {S} (w : world) (text : string) (rest : list keyboard) :
  stdin w = Line text :: rest ->
  @get_choice S w =
  let choice := PyStr.lower (PyStr.strip text) in
  if existsb (String.eqb choice) ["name"; "age"; "email"]
  then (Done (Some choice), answered w [Prompt choice_prompt])
  else (Done None, answered w [Prompt choice_prompt; Print invalid_choice_message]).
Proof.
  destruct w as [fs keys out cs]. intros Hin. simpl in Hin. subst keys.
  unfold get_choice, function, answered. rewrite !bind_run.
  unfold try_except. rewrite bind_run. unfold input.
  cbn [stdin stdout files calls mret io_ret tail].
  generalize (existsb (String.eqb (PyStr.lower (PyStr.strip text))) ["name"; "age"; "email"]).
  intros [|]; cbn [negb when mret io_ret]; [reflexivity |].
  rewrite !bind_run, print_run. unfold emit, return_. simpl. by rewrite <- app_assoc.
Qed.

Lemma get_value_cancelled {S} (choice : string) (w : world) :
  cancels (stdin w) ->
  @get_value_for_choice S choice w =
  (Done None, answered w [Prompt (value_prompt choice); Print cancelled_notice]).
Proof.
  destruct w as [fs keys out cs]. intros H.
  unfold get_value_for_choice, function, try_except, answered, value_prompt.
  rewrite !bind_run. unfold when, input.
  destruct (String.eqb choice "name"); [| destruct (String.eqb choice "age")];
    rewrite ?bind_run; cbn [mret io_ret]; rewrite ?bind_run;
    destruct keys as [|[text| |] rest]; try done; simpl; by rewrite <- app_assoc.
Qed.

Lemma get_value_line {S} (choice : string) (w : world) (text : string) (rest : list keyboard) :
  stdin w = Line text :: rest ->
  @get_value_for_choice S choice w =
  (Done (Some (PyStr.strip text)), answered w [Prompt (value_prompt choice)]).
Proof.
  destruct w as [fs keys out cs]. intros Hin. simpl in Hin. subst keys.
  unfold get_value_for_choice, function, try_except, answered, value_prompt.
  rewrite !bind_run. unfold when, input.
  destruct (String.eqb choice "name"); [| destruct (String.eqb choice "age")];
    rewrite ?bind_run; cbn [mret io_ret]; rewrite ?bind_run; reflexivity.
Qed.

Lemma main_file_missing {S} (w : world) :
  files w !! DEFAULT_USERS_FILE = None ->
  @main S w = (Exit 1, emit w [Print not_found_message]).
Proof.
  intros H. unfold main, function. rewrite bind_run.
  unfold try_except at 1, load_users at 1, function at 1. rewrite H.
  reflexivity.
Qed.

Lemma main_file_not_json {S} (w : world) :
  files w !! DEFAULT_USERS_FILE = Some NotJSON ->
  @main S w = (Exit 1, emit w [Print not_json_message]).
Proof.
  intros H. unfold main, function. rewrite bind_run.
  unfold try_except at 1, load_users at 1, function at 1. rewrite H.
  reflexivity.
Qed.

(** A failure of [load_users] that [main] does not catch ends it. *)
Lemma main_load_uncaught {S} (w : world) (f : file) (e : exn) :
  files w !! DEFAULT_USERS_FILE = Some f ->
  uncaught f = Some e ->
  @main S w = (Raise e, w).
Proof.
  intros H He. unfold main, function. rewrite bind_run.
  unfold try_except at 1, load_users at 1, function at 1. rewrite H.
  destruct f; simplify_eq/=; reflexivity.
Qed.

(** [main] once the document is loaded: what follows the [try]. *)
Lemma main_loaded {S} (w : world) (d : document) :
  files w !! DEFAULT_USERS_FILE = Some (json_of d) ->
  @main S w =
  function (
    choice ← get_choice;
    when (not_ choice) (
      return_ tt);;
    let choice := default "" choice in
    after_choice d choice) w.
Proof.
  intros H. unfold main, function. rewrite (bind_run (try_except _ _)).
  unfold try_except at 1, load_users at 1, function at 1. rewrite H.
  destruct d; reflexivity.
Qed.

Section AfterValue.
Variables (users : list record) (value : string).
Variables (fs : gmap string file) (keys : list keyboard).
Variables (out : list output) (cs : list filter_call).



End AfterValue.

Section AfterChoice.
Variables (d : document) (choice : string).
Variables (fs : gmap string file) (out : list output) (cs : list filter_call).

Lemma after_value_age_invalid (value : string) (keys : list keyboard) :
  PyStr.int value = None ->
  after_value d "age" value (World fs keys out cs) =
  (Return tt, World fs keys (out ++ [Print invalid_integer_message]) cs).
Proof.
  intros H. unfold after_value. rewrite bind_run. cbn [String.eqb Ascii.eqb Bool.eqb].
  rewrite bind_run. unfold try_except, int. rewrite H.
  reflexivity.
Qed.

Lemma after_choice_cancelled (keys : list keyboard) :
  cancels keys ->
  after_choice d choice (World fs keys out cs) =
  (Return tt,
   World fs (tail keys)
     (out ++ [Prompt (value_prompt choice); Print cancelled_notice; Print no_value_message])
     cs).
Proof.
  intros H. unfold after_choice. rewrite bind_run.
  rewrite get_value_cancelled by done.
  rewrite bind_run. unfold answered. simpl. by rewrite <- app_assoc.
Qed.

Lemma after_choice_empty (text : string) (rest : list keyboard) :
  PyStr.strip text = "" ->
  after_choice d choice (World fs (Line text :: rest) out cs) =
  (Return tt,
   World fs rest (out ++ [Prompt (value_prompt choice); Print no_value_message]) cs).
Proof.
  intros H. unfold after_choice. rewrite bind_run.
  rewrite (get_value_line _ _ text rest) by done. rewrite H.
  rewrite bind_run. unfold answered. simpl. by rewrite <- app_assoc.
Qed.

Lemma after_choice_value (text : string) (rest : list keyboard) :
  PyStr.strip text <> "" ->
  after_choice d choice (World fs (Line text :: rest) out cs) =
  after_value d choice (PyStr.strip text)
    (World fs rest (out ++ [Prompt (value_prompt choice)]) cs).
Proof.
  intros H. unfold after_choice. rewrite bind_run.
  rewrite (get_value_line _ _ text rest) by done.
  apply String.eqb_neq in H.
  rewrite bind_run. unfold is_none_or_empty. rewrite H. reflexivity.
Qed.
End AfterChoice.

Section Run.
Variables (fs : gmap string file) (d : document).
Hypothesis Hfs : fs !! DEFAULT_USERS_FILE = Some (json_of d).

Lemma run_cancelled_choice (keys : list keyboard) :
  cancels keys ->
  run (start fs keys) =
  (0, World fs (tail keys) [Prompt choice_prompt; Print cancelled_notice] []).
Proof.
  intros H. unfold run, start. rewrite (main_loaded _ d) by done.
  unfold function. rewrite bind_run, get_choice_cancelled by done.
  reflexivity.
Qed.

Lemma run_invalid_choice (text : string) (rest : list keyboard) :
  ~ valid_choice (normalise text) ->
  run (start fs (Line text :: rest)) =
  (0, World fs rest [Prompt choice_prompt; Print invalid_choice_message] []).
Proof.
  intros H. unfold run, start. rewrite (main_loaded _ d) by done.
  unfold function. rewrite bind_run, (get_choice_line _ text rest) by done.
  cbv zeta. rewrite <- valid_choice_in_choices in H.
  apply not_true_is_false in H. unfold normalise in H. rewrite H.
  reflexivity.
Qed.

Lemma run_valid_choice (text : string) (rest : list keyboard) :
  valid_choice (normalise text) ->
  run (start fs (Line text :: rest)) =
  finish (after_choice d (normalise text) (World fs rest [Prompt choice_prompt] [])).
Proof.
  intros H. unfold run, start. rewrite (main_loaded _ d) by done.
  unfold function. rewrite bind_run, (get_choice_line _ text rest) by done.
  cbv zeta. pose proof H as Hin. rewrite <- valid_choice_in_choices in Hin.
  unfold normalise in *. rewrite Hin.
  assert (Hne : String.eqb (PyStr.lower (PyStr.strip text)) "" = false).
  { apply String.eqb_neq. destruct H as [-> | [-> | ->]]; discriminate. }
  rewrite bind_run. unfold not_. rewrite Hne.
  cbn [when mret io_ret default answered files stdin stdout calls tail app].
  by destruct (after_choice _ _ _) as [[| | |] w'].
Qed.
End Run.


(** The scenarios of the specification on the two records. *)
Example run_age_30 :
  run (start (users_file [ann1; ann2]) [Line "age"; Line "30"]) =
  (0, World (users_file [ann1; ann2]) []
        [Prompt choice_prompt; Prompt "Enter an age to filter users: ";
         Print "id: 1, name: Ann, age: 30, email: A@x.com"]
        [ByAge 30]).
Proof. vm_compute. reflexivity. Qed.

Example run_no_match :
  run (start (users_file [ann1; ann2]) [Line "email"; Line "nobody@x.com"]) =
  (0, World (users_file [ann1; ann2]) []
        [Prompt choice_prompt; Prompt "Enter an email to filter users: ";
         Print "No users found."]
        [ByEmail "nobody@x.com"]).
Proof. vm_compute. reflexivity. Qed.















(** C5, as stated, fails at the value prompt: there the cancellation
    notice is followed by a second message, [No value provided; exiting.] *)
Lemma cancel_at_value_prompt_two_messages :
  run (start (users_file [ann1; ann2]) [Line "age"; CtrlD]) =
  (0, World (users_file [ann1; ann2]) []
        [Prompt choice_prompt;
         Prompt "Enter an age to filter users: ";
         Print (newline ++ "Input cancelled.");
         Print "No value provided; exiting."]
        []).
Proof. vm_compute. reflexivity. Qed.

(** C5, amended. A cancellation (end of input or interrupt) at the choice
    prompt ends the run with status 0 after the cancellation notice alone;
    at the value prompt it ends the run with status 0 after the
    cancellation notice followed by [No value provided; exiting.]  In both
    cases no filter is called and no result line is printed. *)
Theorem cancellation_runs (fs : gmap string file) (users : list record)
    (keys : list keyboard) :
  fs !! DEFAULT_USERS_FILE = Some (UsersJSON users) ->
  (cancels keys ->
   run (start fs keys) =
   (0, World fs (tail keys) [Prompt choice_prompt; Print cancelled_notice] [])) /\
  (forall text rest,
      keys = Line text :: rest ->
      valid_choice (normalise text) ->
      cancels rest ->
      run (start fs keys) =
      (0, World fs (tail rest)
            [Prompt choice_prompt; Prompt (value_prompt (normalise text));
             Print cancelled_notice; Print no_value_message]
            [])).
Proof.
  intros Hfs. split.
  - intros H. by apply (run_cancelled_choice fs (Records users)).
  - intros text rest -> Hv Hc.
    rewrite (run_valid_choice fs (Records users)) by done.
    by rewrite after_choice_cancelled.
Qed.

Lemma cancellation_runs_witness :
  run (start (users_file [ann1; ann2]) [CtrlC]) =
    (0, World (users_file [ann1; ann2]) []
          [Prompt choice_prompt; Print cancelled_notice] []) /\
  run (start (users_file [ann1; ann2]) [Line " Email"]) =
    (0, World (users_file [ann1; ann2]) []
          [Prompt choice_prompt; Prompt "Enter an email to filter users: ";
           Print cancelled_notice; Print no_value_message] []).
Proof.
  split.
  - apply (cancellation_runs (users_file [ann1; ann2]) [ann1; ann2] [CtrlC]);
      [reflexivity | exact I].
  - apply (cancellation_runs (users_file [ann1; ann2]) [ann1; ann2] [Line " Email"]
             eq_refl) with (text := " Email") (rest := []).
    + reflexivity.
    + right; right; reflexivity.
    + exact I.
Defined.

(** C6. When the choice is [age] and the value entered, the text that
    the value prompt hands on (trimmed, and not empty: an empty value ends
    the run before, see C8), does not parse as a base-10 integer, as
    [thirty] does not, the run prints
    [Please enter a valid integer for age.] and ends with status 0: no
    filter is called and no result line is printed. *)
Theorem invalid_age_runs (fs : gmap string file) (users : list record)
    (text value : string) (rest : list keyboard) :
  fs !! DEFAULT_USERS_FILE = Some (UsersJSON users) ->
  normalise text = "age" ->
  PyStr.strip value <> "" ->
  PyStr.int (PyStr.strip value) = None ->
  run (start fs (Line text :: Line value :: rest)) =
  (0, World fs rest
        [Prompt choice_prompt; Prompt "Enter an age to filter users: ";
         Print "Please enter a valid integer for age."]
        []).
Proof.
  intros Hfs Hage Hne Hint.
  rewrite (run_valid_choice fs (Records users)) by (done || (right; by left)).
  rewrite after_choice_value by done. rewrite Hage.
  by rewrite after_value_age_invalid.
Qed.

Lemma invalid_age_runs_witness :
  run (start (users_file [ann1; ann2]) [Line "age"; Line "thirty"]) =
  (0, World (users_file [ann1; ann2]) []
        [Prompt choice_prompt; Prompt "Enter an age to filter users: ";
         Print "Please enter a valid integer for age."]
        []).
Proof.
  apply (invalid_age_runs (users_file [ann1; ann2]) [ann1; ann2] "age" "thirty" []).
  - reflexivity.
  - reflexivity.
  - discriminate.
  - reflexivity.
Defined.

(** [int] takes a text of 4300 digits and refuses one of 4301, and the run
    treats the latter as any other text that is not an integer. *)
Example age_of_too_many_digits :
  is_Some (PyStr.int (ones 4300)) /\
  PyStr.int (ones 4301) = None /\
  run (start (users_file [ann1; ann2]) [Line "age"; Line (ones 4301)]) =
  (0, World (users_file [ann1; ann2]) []
        [Prompt choice_prompt; Prompt "Enter an age to filter users: ";
         Print "Please enter a valid integer for age."]
        []).
Proof.
  split; [| split].
  - eexists. vm_compute. reflexivity.
  - vm_compute. reflexivity.
  - vm_compute. reflexivity.
Qed.

(** C7. At the choice prompt, a line that, trimmed and lower-cased, is
    none of [name], [age], [email] makes the run print the invalid-choice
    message and end with status 0: the value is not asked for (the rest of
    the input is not read) and no filter is called.  The empty line is
    such a line. *)
Theorem invalid_choice_runs (fs : gmap string file) (users : list record)
    (text : string) (rest : list keyboard) :
  fs !! DEFAULT_USERS_FILE = Some (UsersJSON users) ->
  (~ valid_choice (normalise text) ->
   run (start fs (Line text :: rest)) =
   (0, World fs rest
         [Prompt choice_prompt;
          Print "Invalid choice. Please enter 'name', 'age', or 'email'."]
         [])) /\
  run (start fs (Line "" :: rest)) =
  (0, World fs rest
        [Prompt choice_prompt;
         Print "Invalid choice. Please enter 'name', 'age', or 'email'."]
        []).
Proof.
  intros Hfs. split.
  - intros H. by apply (run_invalid_choice fs (Records users)).
  - apply (run_invalid_choice fs (Records users)); [done |].
    intros [H | [H | H]]; discriminate.
Qed.

Lemma invalid_choice_runs_witness :
  run (start (users_file [ann1; ann2]) [Line "color"; Line "red"]) =
  (0, World (users_file [ann1; ann2]) [Line "red"]
        [Prompt choice_prompt;
         Print "Invalid choice. Please enter 'name', 'age', or 'email'."]
        []).
Proof.
  refine (proj1 (invalid_choice_runs (users_file [ann1; ann2]) [ann1; ann2]
                   "color" [Line "red"] _) _).
  - reflexivity.
  - intros [H | [H | H]]; discriminate.
Defined.

(** C8. For each of the three choices, a value that is empty after
    trimming makes the run print [No value provided; exiting.] and end
    with status 0, and no filter is called. *)
Theorem empty_value_runs (fs : gmap string file) (users : list record)
    (text value : string) (rest : list keyboard) :
  fs !! DEFAULT_USERS_FILE = Some (UsersJSON users) ->
  valid_choice (normalise text) ->
  PyStr.strip value = "" ->
  run (start fs (Line text :: Line value :: rest)) =
  (0, World fs rest
        [Prompt choice_prompt; Prompt (value_prompt (normalise text));
         Print "No value provided; exiting."]
        []).
Proof.
  intros Hfs Hv He.
  rewrite (run_valid_choice fs (Records users)) by done.
  by rewrite after_choice_empty.
Qed.

Lemma empty_value_runs_witness :
  run (start (users_file [ann1; ann2]) [Line "NAME"; Line "   "; Line "Ann"]) =
  (0, World (users_file [ann1; ann2]) [Line "Ann"]
        [Prompt choice_prompt; Prompt "Enter a name to filter users: ";
         Print "No value provided; exiting."]
        []).
Proof.
  apply (empty_value_runs (users_file [ann1; ann2]) [ann1; ann2] "NAME" "   " [Line "Ann"]).
  - reflexivity.
  - left; reflexivity.
  - reflexivity.
Defined.

(** * Further properties of the code *)

(** ** The filters *)

Lemma selection_filter_on {A} (P : A -> Prop) (test : A -> bool) (U R : list A) :
  (forall x, In x U -> (test x = true <-> P x)) ->
  selection P U R <-> R = List.filter test U.
Proof.
  revert R. induction U as [|x U IH]; intros R Hspec; simpl.
  - split; [by inversion 1 | intros ->; constructor].
  - assert (HU : forall y, In y U -> (test y = true <-> P y))
      by (intros y Hy; apply Hspec; by right).
    pose proof (Hspec x (or_introl eq_refl)) as Hx.
    split.
    + inversion 1 as [|? ? R' HP Hsel|? ? ? HP Hsel]; subst.
      * apply Hx in HP. rewrite HP. f_equal. by apply IH.
      * destruct (test x) eqn:E; [| by apply IH].
        exfalso. apply HP, Hx. done.
    + intros ->. destruct (test x) eqn:E.
      * apply selection_keep; [by apply Hx | by apply IH].
      * apply selection_drop; [| by apply IH].
        intros HP. apply Hx in HP. congruence.
Qed.

Lemma filter_comm {A} (f g : A -> bool) (U : list A) :
  List.filter f (List.filter g U) = List.filter g (List.filter f U).
Proof.
  induction U as [|x U IH]; simpl; [done |].
  destruct (f x) eqn:Ef, (g x) eqn:Eg; simpl; rewrite ?Ef, ?Eg; by rewrite IH.
Qed.

Lemma lower_char_idem (c : ascii) :
  PyStr.lower_char (PyStr.lower_char c) = PyStr.lower_char c.
Proof. destruct c as [[] [] [] [] [] [] [] []]; reflexivity. Qed.

Lemma lower_idem (s : string) : PyStr.lower (PyStr.lower s) = PyStr.lower s.
Proof.
  induction s as [|c s IH]; simpl; [done |].
  by rewrite lower_char_idem, IH.
Qed.

Lemma lower_empty (s : string) : PyStr.lower s = "" -> s = "".
Proof. by destruct s. Qed.

(** X1. For every user collection U and string v,
    [filter_users_by_email U v] is exactly the subsequence of U, order
    kept, of the records whose email, lower-cased, equals v lower-cased; a
    record without an [email] field counts as having the empty email, a
    string is compared as it is, any other value through its [str]
    rendering. *)
Theorem filter_users_by_email_exact (U : list record) (v : string) :
  (forall R, selection (email_is v) U R <-> R = filter_users_by_email U v) /\
  sublist (filter_users_by_email U v) U /\
  (forall u, u !! "email" = None -> (email_is v u <-> PyStr.lower v = "")) /\
  (forall u s, u !! "email" = Some (VStr s) ->
               (email_is v u <-> PyStr.lower s = PyStr.lower v)).
Proof.
  split; [| split; [| split]].
  - intros R. apply selection_iff, email_matches_spec.
  - eapply selection_sublist, selection_filter, email_matches_spec.
  - intros u Hu. unfold email_is, field_text. rewrite Hu. simpl. split; congruence.
  - intros u s Hu. unfold email_is, field_text. by rewrite Hu.
Qed.

(** X2. On a collection in which no age is a boolean,
    [filter_users_by_age U n] is exactly the subsequence of U, order kept,
    of the records whose [age] is the integer n. *)
Theorem filter_users_by_age_exact (U : list record) (n : Z) :
  no_bool_age U ->
  forall R, selection (age_is n) U R <-> R = filter_users_by_age U n.
Proof.
  intros Hnb R. apply selection_filter_on. intros u Hu.
  rewrite age_matches_spec. unfold age_is. split; [| by left].
  intros [H | [[H _] | [H _]]]; [done | |]; by apply Hnb in H.
Qed.

Lemma filter_users_by_age_exact_witness :
  selection (age_is 30) [ann1; ann2] [ann1].
Proof.
  apply (filter_users_by_age_exact [ann1; ann2] 30).
  - intros u b [<- | [<- | []]]; discriminate.
  - reflexivity.
Defined.

(** X3. The filters commute: filtering by two fields gives the same
    collection whichever filter runs first. *)
Theorem filters_commute (U : list record) (name email : string) (age : Z) :
  filter_users_by_name (filter_users_by_age U age) name =
    filter_users_by_age (filter_users_by_name U name) age /\
  filter_users_by_name (filter_users_by_email U email) name =
    filter_users_by_email (filter_users_by_name U name) email /\
  filter_users_by_age (filter_users_by_email U email) age =
    filter_users_by_email (filter_users_by_age U age) email.
Proof. repeat split; apply filter_comm. Qed.

(** X4. The name and email filters do not depend on the case of the value
    asked for: two values with the same lower-casing select the same
    records, and a value can be replaced by its lower-casing. *)
Theorem filters_ignore_query_case (U : list record) (v v' : string) :
  (PyStr.lower v = PyStr.lower v' ->
   filter_users_by_name U v = filter_users_by_name U v' /\
   filter_users_by_email U v = filter_users_by_email U v') /\
  filter_users_by_name U (PyStr.lower v) = filter_users_by_name U v /\
  filter_users_by_email U (PyStr.lower v) = filter_users_by_email U v.
Proof.
  unfold filter_users_by_name, filter_users_by_email.
  split; [| by rewrite lower_idem].
  by intros ->.
Qed.

Lemma filters_ignore_query_case_witness :
  filter_users_by_name [ann1; ann2] "ANN" = filter_users_by_name [ann1; ann2] "aNn" /\
  filter_users_by_email [ann1; ann2] "ANN" = filter_users_by_email [ann1; ann2] "aNn".
Proof.
  apply (proj1 (filters_ignore_query_case [ann1; ann2] "ANN" "aNn")). reflexivity.
Defined.

(** X5. A record whose [name] (or [email]) is null is not treated as one
    without the field: its text is [None], so it is returned exactly for
    the values whose lower-casing is [none]. *)
Theorem null_field_matches_none (U : list record) (v : string) (u : record) :
  (u !! "name" = Some VNone ->
   (In u (filter_users_by_name U v) <-> In u U /\ PyStr.lower v = "none")) /\
  (u !! "email" = Some VNone ->
   (In u (filter_users_by_email U v) <-> In u U /\ PyStr.lower v = "none")).
Proof.
  split; intros Hu.
  - unfold filter_users_by_name. rewrite filter_In, name_matches_spec.
    unfold name_is, field_text. rewrite Hu. simpl. split; intros [? ?]; by split.
  - unfold filter_users_by_email. rewrite filter_In, email_matches_spec.
    unfold email_is, field_text. rewrite Hu. simpl. split; intros [? ?]; by split.
Qed.

Lemma null_field_matches_none_witness :
  In ({["name" := VNone]} : record) (filter_users_by_name [{["name" := VNone]}] "NONE").
Proof.
  apply (proj1 (null_field_matches_none [{["name" := VNone]}] "NONE" {["name" := VNone]})).
  - reflexivity.
  - split; [by left | reflexivity].
Defined.

(** X6. A record that has a [name] field is found by the name
    [print_users] shows for it, and one that has an [email] field by the
    email shown.  A record without the field is shown with [None] and is
    not found by that text. *)
Theorem found_by_shown_text (U : list record) (u : record) :
  In u U ->
  (is_Some (u !! "name") -> In u (filter_users_by_name U (shown u "name"))) /\
  (is_Some (u !! "email") -> In u (filter_users_by_email U (shown u "email"))) /\
  (u !! "name" = None ->
   shown u "name" = "None" /\ ~ In u (filter_users_by_name U (shown u "name"))) /\
  (u !! "email" = None ->
   shown u "email" = "None" /\ ~ In u (filter_users_by_email U (shown u "email"))).
Proof.
  intros Hin. unfold filter_users_by_name, filter_users_by_email.
  repeat split.
  - intros [x Hx]. rewrite filter_In, name_matches_spec. split; [done |].
    unfold name_is, field_text, shown. rewrite Hx. by destruct x.
  - intros [x Hx]. rewrite filter_In, email_matches_spec. split; [done |].
    unfold email_is, field_text, shown. rewrite Hx. by destruct x.
  - unfold shown. by rewrite H.
  - rewrite filter_In, name_matches_spec. unfold name_is, field_text, shown.
    rewrite H. intros [_ ?]. discriminate.
  - unfold shown. by rewrite H.
  - rewrite filter_In, email_matches_spec. unfold email_is, field_text, shown.
    rewrite H. intros [_ ?]. discriminate.
Qed.

Lemma found_by_shown_text_witness :
  In ann2 (filter_users_by_name [ann1; ann2] (shown ann2 "name")) /\
  In ann2 (filter_users_by_email [ann1; ann2] (shown ann2 "email")).
Proof.
  pose proof (found_by_shown_text [ann1; ann2] ann2 (or_intror (or_introl eq_refl)))
    as (Hn & He & _).
  split; [apply Hn | apply He]; by eexists.
Defined.

(** ** [str] and [int] on integers *)























(** ** The interactive part, function by function *)

Lemma strip_idem (text : string) : PyStr.strip (PyStr.strip text) = PyStr.strip text.
Proof.
  unfold PyStr.strip.
  rewrite (lstrip_by_strip PyStr.is_space PyStr.is_space) by done.
  by rewrite (rstrip_by_rstrip_by PyStr.is_space PyStr.is_space).
Qed.





(** X9. [print_users] writes [No users found.] exactly when the sequence
    is empty: no record prints as that line. *)
Theorem no_users_found_iff_empty (users : list record) (w : world) :
  stdout (snd (@print_users unit users w)) = (stdout w ++ [Print "No users found."])%list <->
  users = [].
Proof.
  rewrite print_users_run. simpl. split.
  - intros H. apply app_inv_head in H.
    destruct users as [|u us]; [done |].
    unfold printed_users in H. cbn [List.map] in H.
    exfalso. injection H. intros; discriminate.
  - by intros ->.
Qed.

(** ** The runs that reach a filter *)

Section Dispatch.
Variables (fs : gmap string file) (users : list record).
Hypothesis Hfs : fs !! DEFAULT_USERS_FILE = Some (UsersJSON users).
Variables (text value : string) (rest : list keyboard).
Hypothesis Hvalue : PyStr.strip value <> "".



End Dispatch.







(** ** What no run does *)

(** The filters on a loaded document return a list or raise, and leave
    the world as it is. *)
Lemma comprehension_result {R} (items : list value) (test : record -> bool) :
  (exists kept, forall w, @Loaded.comprehension R items test w = (Done kept, w)) \/
  (forall w, @Loaded.comprehension R items test w = (Raise AttributeError, w)).
Proof.
  induction items as [|u items IH]; simpl.
  - left. by exists [].
  - destruct (Loaded.as_record u) as [fields|]; [| by right].
    destruct IH as [[kept IH] | IH].
    + left. eexists. intros w. by rewrite bind_run, IH.
    + right. intros w. by rewrite bind_run, IH.
Qed.

Lemma select_result {R} (d : document) (filter : list record -> list record)
    (test : record -> bool) :
  (exists kept, forall w, @Loaded.select R d filter test w = (Done kept, w)) \/
  (exists e, forall w, @Loaded.select R d filter test w = (Raise e, w)).
Proof.
  destruct d as [users|doc]; simpl.
  - left. by eexists.
  - destruct (Loaded.iterate doc) as [items|]; [| right; by eexists].
    destruct (comprehension_result (R := R) items test) as [[kept H] | H].
    + left. by exists kept.
    + right. by exists AttributeError.
Qed.

(** What follows a call of a filter in [main]. *)
Lemma call_then_print (c : filter_call) (filter : io unit (list record))
    (keys : list keyboard) (out : list output) (cs : list filter_call) :
  ((exists kept, forall w, filter w = (Done kept, w)) \/
   (exists e, forall w, filter w = (Raise e, w))) ->
  exists (st : Z) (out' : list output),
    (st = 0 \/ st = 1) /\
    forall fs,
      finish ((call c filter ≫= print_users) (World fs keys out cs)) =
      (st, World fs keys (out ++ out') (cs ++ [c])).
Proof.
  intros [[kept H] | [e H]].
  - exists 0, (printed_users kept). split; [by left |]. intros fs.
    rewrite bind_run. unfold call. rewrite H. cbn [files stdin stdout calls].
    by rewrite print_users_run.
  - exists 1, []. split; [by right |]. intros fs.
    rewrite bind_run. unfold call. rewrite H. cbn [files stdin stdout calls finish].
    by rewrite app_nil_r.
Qed.

Lemma after_value_shape (d : document) (choice value : string)
    (keys : list keyboard) (out : list output) :
  exists (st : Z) (out' : list output) (cs : list filter_call),
    (st = 0 \/ st = 1) /\ one_call value cs /\
    forall fs,
      finish (after_value d choice value (World fs keys out [])) =
      (st, World fs keys (out ++ out') cs).
Proof.
  unfold after_value, one_call.
  destruct (String.eqb choice "name"); [| destruct (String.eqb choice "age")].
  - destruct (call_then_print (ByName value)
                (Loaded.filter_users_by_name d value) keys out [])
      as (st & out' & Hst & H); [apply select_result |].
    exists st, out', [ByName value].
    split; [done | split; [right; by left | exact H]].
  - destruct (PyStr.int value) as [n|] eqn:Hint.
    + destruct (call_then_print (ByAge n)
                  (Loaded.filter_users_by_age d n) keys out [])
        as (st & out' & Hst & H); [apply select_result |].
      exists st, out', [ByAge n]. split; [done |]. split; [eauto |].
      intros fs. rewrite <- H. f_equal.
      unfold mbind, io_bind, try_except, int. rewrite Hint. reflexivity.
    + exists 0, [Print invalid_integer_message], []. split; [by left |].
      split; [by left |]. intros fs.
      rewrite bind_run, bind_run. unfold try_except, int. rewrite Hint.
      reflexivity.
  - destruct (call_then_print (ByEmail value)
                (Loaded.filter_users_by_email d value) keys out [])
      as (st & out' & Hst & H); [apply select_result |].
    exists st, out', [ByEmail value].
    split; [done | split; [right; right; by left | exact H]].
Qed.

(** The shape of every run on a loaded document. *)
Lemma run_document_shape (d : document) (keys : list keyboard) :
  exists (k : nat) (out : list output) (cs : list filter_call) (st : Z),
    (k <= 2)%nat /\ (st = 0 \/ st = 1) /\ calls_ok cs /\
    forall fs, fs !! DEFAULT_USERS_FILE = Some (json_of d) ->
               run (start fs keys) = (st, World fs (drop k keys) out cs).
Proof.
  unfold calls_ok.
  destruct keys as [|[text| |] rest].
  1,3,4: exists 1%nat; eexists _, [], 0;
         (split; [lia | split; [by left | split; [by left |]]]);
         intros fs Hfs; by rewrite (run_cancelled_choice fs d).
  destruct (decide (existsb (String.eqb (normalise text)) ["name"; "age"; "email"] = true))
    as [Hv|Hv]; rewrite valid_choice_in_choices in Hv.
  2: { exists 1%nat; eexists _, [], 0.
       split; [lia | split; [by left | split; [by left |]]].
       intros fs Hfs. by rewrite (run_invalid_choice fs d). }
  destruct rest as [|[value| |] rest].
  1,3,4: exists 2%nat; eexists _, [], 0;
         (split; [lia | split; [by left | split; [by left |]]]);
         intros fs Hfs; rewrite (run_valid_choice fs d) by done;
         by rewrite after_choice_cancelled.
  exists 2%nat.
  destruct (decide (PyStr.strip value = "")) as [He|He].
  { eexists _, [], 0. split; [lia | split; [by left | split; [by left |]]].
    intros fs Hfs. rewrite (run_valid_choice fs d) by done.
    by rewrite after_choice_empty. }
  assert (Ht : trimmed (PyStr.strip value)) by (split; [done | apply strip_idem]).
  destruct (after_value_shape d (normalise text) (PyStr.strip value) rest
              ([Prompt choice_prompt] ++ [Prompt (value_prompt (normalise text))]))
    as (st & out' & cs & Hst & Hcs & Hrun).
  eexists _, cs, st. split; [lia | split; [done | split]].
  - destruct Hcs as [-> | [-> | [-> | [n ->]]]]; eauto 10.
  - intros fs Hfs. rewrite (run_valid_choice fs d) by done.
    rewrite after_choice_value by done. apply Hrun.
Qed.

(** The shape of every run, by what the users file is. *)
Lemma run_by_file (f : option file) (keys : list keyboard) :
  exists (k : nat) (out : list output) (cs : list filter_call) (st : Z),
    (k <= 2)%nat /\ (st = 0 \/ st = 1) /\ calls_ok cs /\
    forall fs, fs !! DEFAULT_USERS_FILE = f ->
               run (start fs keys) = (st, World fs (drop k keys) out cs).
Proof.
  assert (Huncaught : forall f' e, f = Some f' -> uncaught f' = Some e ->
            exists (k : nat) (out : list output) (cs : list filter_call) (st : Z),
              (k <= 2)%nat /\ (st = 0 \/ st = 1) /\ calls_ok cs /\
              forall fs, fs !! DEFAULT_USERS_FILE = f ->
                         run (start fs keys) = (st, World fs (drop k keys) out cs)).
  { intros f' e -> He. exists 0%nat, [], [], 1.
    split; [lia | split; [by right | split; [by left |]]].
    intros fs Hfs. unfold run, start.
    by rewrite (main_load_uncaught _ f' e). }
  destruct f as [[| | | |users|doc]|].
  - by eapply Huncaught.
  - by eapply Huncaught.
  - exists 0%nat, [Print not_json_message], [], 1.
    split; [lia | split; [by right | split; [by left |]]].
    intros fs Hfs. unfold run, start. by rewrite main_file_not_json.
  - by eapply Huncaught.
  - apply (run_document_shape (Records users)).
  - apply (run_document_shape (Other doc)).
  - exists 0%nat, [Print not_found_message], [], 1.
    split; [lia | split; [by right | split; [by left |]]].
    intros fs Hfs. unfold run, start. by rewrite main_file_missing.
Qed.

(** X13. Whatever the files and the input, a run ends with status 0 or 1,
    leaves the files as they were, reads at most two answers (what is left
    of the input is the input without its first k answers, k at most 2)
    and calls at most one filter. *)
Theorem run_bounds (fs : gmap string file) (keys : list keyboard) :
  (fst (run (start fs keys)) = 0 \/ fst (run (start fs keys)) = 1) /\
  files (snd (run (start fs keys))) = fs /\
  (exists k : nat, (k <= 2)%nat /\ stdin (snd (run (start fs keys))) = drop k keys) /\
  (length (calls (snd (run (start fs keys)))) <= 1)%nat.
Proof.
  destruct (run_by_file (fs !! DEFAULT_USERS_FILE) keys)
    as (k & out & cs & st & Hk & Hst & Hcs & Hrun).
  rewrite (Hrun fs eq_refl). simpl.
  split; [done | split; [done | split; [by exists k |]]].
  destruct Hcs as [-> | [(v & _ & [-> | ->]) | [n ->]]]; simpl; lia.
Qed.

(** X14. Every value a run passes to the name or the email filter is
    trimmed and not empty.  So a run never lists, in a search by name, a
    record that has no [name] field, nor, in a search by email, one that
    has no [email] field. *)
Theorem run_calls_trimmed (fs : gmap string file) (keys : list keyboard) :
  Forall call_trimmed (calls (snd (run (start fs keys)))) /\
  (forall (v : string) (U : list record) (u : record),
      In (ByName v) (calls (snd (run (start fs keys)))) ->
      u !! "name" = None -> ~ In u (filter_users_by_name U v)) /\
  (forall (v : string) (U : list record) (u : record),
      In (ByEmail v) (calls (snd (run (start fs keys)))) ->
      u !! "email" = None -> ~ In u (filter_users_by_email U v)).
Proof.
  assert (H : Forall call_trimmed (calls (snd (run (start fs keys))))).
  { destruct (run_by_file (fs !! DEFAULT_USERS_FILE) keys)
      as (k & out & cs & st & Hk & Hst & Hcs & Hrun).
    rewrite (Hrun fs eq_refl). simpl.
    destruct Hcs as [-> | [(v & Hv & [-> | ->]) | [n ->]]].
    - apply Forall_nil_2.
    - by apply Forall_singleton.
    - by apply Forall_singleton.
    - by apply Forall_singleton. }
  split; [done |].
  rewrite Forall_forall in H.
  split; intros v U u Hin Hu Hfound; apply list_elem_of_In, H in Hin as [Hne _].
  - unfold filter_users_by_name in Hfound.
    rewrite filter_In, name_matches_spec in Hfound. destruct Hfound as [_ Hm].
    unfold name_is, field_text in Hm. rewrite Hu in Hm.
    symmetry in Hm. by apply lower_empty in Hm.
  - unfold filter_users_by_email in Hfound.
    rewrite filter_In, email_matches_spec in Hfound. destruct Hfound as [_ Hm].
    unfold email_is, field_text in Hm. rewrite Hu in Hm.
    symmetry in Hm. by apply lower_empty in Hm.
Qed.

(** X15. A run reads no file but [users.json]: two file systems that agree
    on that file give the same exit status, the same output, the same
    filter call and leave the same input. *)
Theorem run_reads_only_users_file (fs fs' : gmap string file) (keys : list keyboard) :
  fs !! DEFAULT_USERS_FILE = fs' !! DEFAULT_USERS_FILE ->
  fst (run (start fs keys)) = fst (run (start fs' keys)) /\
  observed (snd (run (start fs keys))) = observed (snd (run (start fs' keys))).
Proof.
  intros H.
  destruct (run_by_file (fs !! DEFAULT_USERS_FILE) keys)
    as (k & out & cs & st & _ & _ & _ & Hrun).
  by rewrite (Hrun fs eq_refl), (Hrun fs' (eq_sym H)).
Qed.

Lemma run_reads_only_users_file_witness :
  fst (run (start (users_file [ann1; ann2]) [Line "name"; Line "ann"])) =
    fst (run (start (<["other.json" := NotJSON]> (users_file [ann1; ann2]))
                [Line "name"; Line "ann"])) /\
  observed (snd (run (start (users_file [ann1; ann2]) [Line "name"; Line "ann"]))) =
    observed (snd (run (start (<["other.json" := NotJSON]> (users_file [ann1; ann2]))
                         [Line "name"; Line "ann"]))).
Proof.
  apply (run_reads_only_users_file (users_file [ann1; ann2])
           (<["other.json" := NotJSON]> (users_file [ann1; ann2]))
           [Line "name"; Line "ann"]).
  reflexivity.
Defined.
